(** * Task Processor: validation and enrichment pipeline

    A shallow embedding of [src/task_processor.py] and the properties its
    specification states about it.

    Python values decoded by [json.load] are the inductive type [json];
    a [dict] is a finite map keyed by strings, a [str] is the list of its
    Unicode code points, an [int] is an unbounded integer and a [float] is
    an IEEE binary64 number.  Raising an exception is returning [Raise e];
    the functions that log or touch files pass a [World] along. *)

From Stdlib Require Import ZArith NArith String Ascii List.
From Stdlib Require Import Floats.
From stdpp Require Import gmap strings list pretty.

#[local] Set Warnings "-register-all".
#[local] Open Scope Z_scope.

(** ** Python values *)

(** A Python [str]: its code points, so that [len] is [length]. *)
Abbreviation pystr := (list N).

(** A string literal of the source, as a [str]. *)
Definition str (s : string) : pystr :=
  (λ a, N_of_ascii a) <$> list_ascii_of_string s.

Inductive json :=
| JNull
| JBool (b : bool)
| JInt (z : Z)
| JFloat (f : float)
| JStr (s : pystr)
| JList (l : list json)
| JDict (d : gmap pystr json).

(** Exceptions: the class, and the text [str(e)] of the instance.
    [OtherException] is any further subclass of [Exception]. *)
Inductive exn :=
| ValidationError (msg : pystr)
| KeyError (msg : pystr)
| TypeError (msg : pystr)
| FileNotFoundError (msg : pystr)
| PermissionError (msg : pystr)
| JSONDecodeError (msg : pystr)
| OtherException (msg : pystr).

Definition exn_str (e : exn) : pystr :=
  match e with
  | ValidationError msg | KeyError msg | TypeError msg
  | FileNotFoundError msg | PermissionError msg | JSONDecodeError msg
  | OtherException msg => msg
  end.

Inductive result (A : Type) :=
| Ok (a : A)
| Raise (e : exn).
Arguments Ok {A} a.
Arguments Raise {A} e.

#[global] Instance result_ret : MRet result := λ A a, Ok a.
#[global] Instance result_bind : MBind result := λ A B f r,
  match r with Ok a => f a | Raise e => Raise e end.

Module Py.

(** [type(v).__name__] *)
Definition type_name (v : json) : pystr :=
  str match v with
      | JNull => "NoneType"
      | JBool _ => "bool"
      | JInt _ => "int"
      | JFloat _ => "float"
      | JStr _ => "str"
      | JList _ => "list"
      | JDict _ => "dict"
      end.

Definition isinstance_bool (v : json) : bool :=
  match v with JBool _ => true | _ => false end.

(** [bool] is a subclass of [int]. *)
Definition isinstance_int (v : json) : bool :=
  match v with JInt _ | JBool _ => true | _ => false end.

Definition isinstance_float (v : json) : bool :=
  match v with JFloat _ => true | _ => false end.

Definition isinstance_str (v : json) : bool :=
  match v with JStr _ => true | _ => false end.

(** [str(n)] of an [int], as an f-string renders it. *)
Definition repr_int (z : Z) : pystr := str (pretty z).

(** [d[k]]; the text of the [KeyError] is the key between quotes, which
    is its [repr] for the keys the source subscripts with. *)
Definition getitem (d : gmap pystr json) (k : pystr) : result json :=
  match d !! k with
  | Some v => Ok v
  | None => Raise (KeyError (str "'" ++ k ++ str "'"))
  end.

(** [str.isspace] of one code point: the white space of [str.strip()]. *)
Definition isspace (c : N) : bool :=
  ((9 <=? c) && (c <=? 13) || (28 <=? c) && (c <=? 32)
   || (c =? 133) || (c =? 160) || (c =? 5760)
   || (8192 <=? c) && (c <=? 8202)
   || (c =? 8232) || (c =? 8233) || (c =? 8239) || (c =? 8287)
   || (c =? 12288))%N.

Fixpoint lstrip (s : pystr) : pystr :=
  match s with
  | c :: s' => if isspace c then lstrip s' else s
  | [] => []
  end.

Definition rstrip (s : pystr) : pystr := reverse (lstrip (reverse s)).

Definition strip (s : pystr) : pystr := rstrip (lstrip s).

(** Truth value of a [str]: the empty string is false. *)
Definition truthy (s : pystr) : bool :=
  match s with [] => false | _ => true end.

(** [len(v)]; a [TypeError] on values without a length. *)
Definition len (v : json) : result Z :=
  match v with
  | JStr s => Ok (Z.of_nat (length s))
  | JList l => Ok (Z.of_nat (length l))
  | JDict d => Ok (Z.of_nat (size d))
  | _ =>
      Raise (TypeError
        (str "object of type '" ++ type_name v ++ str "' has no len()"))
  end.

End Py.

(** ** Schema Validator: [validate_item] *)

Definition required_fields : list pystr := [str "id"; str "name"; str "value"].

(** The loop [for field in required_fields: if field not in item: raise]. *)
Fixpoint check_required (item : gmap pystr json) (index : Z)
    (fields : list pystr) : result unit :=
  match fields with
  | [] => Ok tt
  | field :: fields' =>
      match item !! field with
      | None =>
          Raise (ValidationError
            (str "Item at index " ++ Py.repr_int index
             ++ str " is missing required field '" ++ field ++ str "'"))
      | Some _ => check_required item index fields'
      end
  end.

Definition validate_item (item : json) (index : Z) : result (gmap pystr json) :=
  match item with
  | JDict item =>
      _ ← check_required item index required_fields;
      id ← Py.getitem item (str "id");
      if Py.isinstance_bool id || negb (Py.isinstance_int id) then
        Raise (ValidationError
          (str "Item at index " ++ Py.repr_int index
           ++ str ": 'id' must be an integer, got " ++ Py.type_name id))
      else
      name ← Py.getitem item (str "name");
      match name with
      | JStr s =>
          if negb (Py.truthy (Py.strip s)) then
            Raise (ValidationError
              (str "Item at index " ++ Py.repr_int index
               ++ str ": 'name' must be a non-empty string"))
          else
          value ← Py.getitem item (str "value");
          if negb (Py.isinstance_int value || Py.isinstance_float value) then
            Raise (ValidationError
              (str "Item at index " ++ Py.repr_int index
               ++ str ": 'value' must be numeric, got " ++ Py.type_name value))
          else if Py.isinstance_bool value then
            Raise (ValidationError
              (str "Item at index " ++ Py.repr_int index
               ++ str ": 'value' must be numeric, got bool"))
          else
            Ok (<[str "value" := value]>
                 (<[str "name" := name]> (<[str "id" := id]> ∅)))
      | _ =>
          Raise (ValidationError
            (str "Item at index " ++ Py.repr_int index
             ++ str ": 'name' must be a string, got " ++ Py.type_name name))
      end
  | _ =>
      Raise (ValidationError
        (str "Item at index " ++ Py.repr_int index ++ str " is not an object"))
  end.

(** ** Input Validator: [validate_input] *)

(** The loop [for index, item in enumerate(data)], with its two
    accumulators.  [validate_item] returns an [int] under ['id'], so the set
    of seen ids is a set of integers; the last branch is never taken
    ([validate_item_id_int] below). *)
Fixpoint validate_loop (data : list json) (index : Z)
    (validated_items : list (gmap pystr json)) (seen_ids : gset Z)
    : result (list (gmap pystr json)) :=
  match data with
  | [] => Ok validated_items
  | item :: data' =>
      validated_item ← validate_item item index;
      id ← Py.getitem validated_item (str "id");
      match id with
      | JInt z =>
          if decide (z ∈ seen_ids) then
            Raise (ValidationError (str "Duplicate id found: " ++ Py.repr_int z))
          else
            validate_loop data' (index + 1)
              (validated_items ++ [validated_item]) (seen_ids ∪ {[z]})
      | _ => Raise (TypeError (str "unhashable type"))
      end
  end.

Definition validate_input (data : json) : result (list (gmap pystr json)) :=
  match data with
  | JList data => validate_loop data 0 [] ∅
  | _ => Raise (ValidationError (str "Input must be a JSON array"))
  end.

(** ** The world outside: the log and the files *)

Inductive level := INFO | ERROR.

(** The reader and writer collaborators: [open] followed by [json.load],
    and [open] followed by [json.dump].  A failed write may still have
    changed the files. *)
Class FileSystem (Disk : Type) := {
  json_load : pystr → Disk → result json;
  json_dump : pystr → list (gmap pystr json) → Disk → result unit * Disk
}.

Record World (Disk : Type) := mkWorld {
  log : list (level * pystr);
  files : Disk
}.
Arguments mkWorld {Disk} log files.
Arguments log {Disk} w.
Arguments files {Disk} w.

(** A computation that may raise and may change the world. *)
Definition io (Disk A : Type) : Type := World Disk → result A * World Disk.

Definition io_ret {Disk A : Type} (a : A) : io Disk A := λ w, (Ok a, w).

Definition io_bind {Disk A B : Type} (c : io Disk A) (k : A → io Disk B) : io Disk B :=
  λ w, match c w with
       | (Ok a, w') => k a w'
       | (Raise e, w') => (Raise e, w')
       end.

Definition io_lift {Disk A : Type} (r : result A) : io Disk A := λ w, (r, w).

Notation "x ⇐ c ;; k" := (io_bind c (λ x, k))
  (at level 100, c at next level, right associativity).

(** [logger.info(msg)] and [logger.error(msg)] *)
Definition logger {Disk : Type} (l : level) (msg : pystr) : io Disk unit :=
  λ w, (Ok tt, mkWorld (log w ++ [(l, msg)]) (files w)).

(** ** Enricher: [process_items] *)

Fixpoint process_loop (items : list (gmap pystr json))
    (processed : list (gmap pystr json)) : result (list (gmap pystr json)) :=
  match items with
  | [] => Ok processed
  | item :: items' =>
      id ← Py.getitem item (str "id");
      name ← Py.getitem item (str "name");
      value ← Py.getitem item (str "value");
      name' ← Py.getitem item (str "name");
      name_length ← Py.len name';
      let processed_item : gmap pystr json :=
        <[str "name_length" := JInt name_length]>
          (<[str "processed" := JBool true]>
            (<[str "value" := value]>
              (<[str "name" := name]> (<[str "id" := id]> ∅)))) in
      process_loop items' (processed ++ [processed_item])
  end.

Definition process_items {Disk : Type} (items : list (gmap pystr json))
    : io Disk (list (gmap pystr json)) :=
  processed ⇐ io_lift (process_loop items []);;
  _ ⇐ logger INFO (str "Successfully processed "
                    ++ Py.repr_int (Z.of_nat (length processed))
                    ++ str " items");;
  io_ret processed.

(** ** File access: [read_input_file], [write_output_file] *)

Definition read_input_file `{FileSystem Disk} (input_path : pystr) : io Disk json :=
  λ w, match json_load input_path (files w) with
       | Ok data =>
           (_ ⇐ logger INFO (str "Successfully read input file: " ++ input_path);;
            io_ret data) w
       | Raise (FileNotFoundError _) =>
           (Raise (ValidationError (str "Input file not found: " ++ input_path)), w)
       | Raise (JSONDecodeError e) =>
           (Raise (ValidationError (str "Invalid JSON in input file: " ++ e)), w)
       | Raise (PermissionError _) =>
           (Raise (ValidationError
              (str "Permission denied reading file: " ++ input_path)), w)
       | Raise e =>
           (Raise (ValidationError (str "Error reading input file: " ++ exn_str e)), w)
       end.

Definition write_output_file `{FileSystem Disk} (output_path : pystr)
    (data : list (gmap pystr json)) : io Disk unit :=
  λ w, let (r, files') := json_dump output_path data (files w) in
       let w' := mkWorld (log w) files' in
       match r with
       | Ok _ =>
           logger INFO (str "Successfully wrote output file: " ++ output_path) w'
       | Raise (PermissionError _) =>
           (Raise (ValidationError
              (str "Permission denied writing to file: " ++ output_path)), w')
       | Raise e =>
           (Raise (ValidationError (str "Error writing output file: " ++ exn_str e)), w')
       end.

(** ** Pipeline Orchestrator: [process_command] *)

(** The body of the [try] block. *)
Definition process_steps `{FileSystem Disk} (input_path output_path : pystr)
    : io Disk Z :=
  data ⇐ read_input_file input_path;;
  validated_items ⇐ io_lift (validate_input data);;
  processed_items ⇐ process_items validated_items;;
  _ ⇐ write_output_file output_path processed_items;;
  io_ret 0.

Definition process_command `{FileSystem Disk} (input_path output_path : pystr)
    (w : World Disk) : Z * World Disk :=
  match process_steps input_path output_path w with
  | (Ok status, w') => (status, w')
  | (Raise (ValidationError e), w') =>
      (1, (logger ERROR (str "Validation error: " ++ e) w').2)
  | (Raise e, w') =>
      (1, (logger ERROR (str "Unexpected error: " ++ exn_str e) w').2)
  end.

(** ** Files in memory

    A file system that holds decoded documents, for running the pipeline
    on concrete inputs. *)

Inductive file :=
| Document (data : json)
| Malformed (error : pystr)
| Unreadable.

#[global] Instance mem_fs : FileSystem (gmap pystr file) := {
  json_load path fs :=
    match fs !! path with
    | Some (Document data) => Ok data
    | Some (Malformed e) => Raise (JSONDecodeError e)
    | Some Unreadable => Raise (PermissionError (str "Permission denied"))
    | None => Raise (FileNotFoundError (str "No such file or directory"))
    end;
  json_dump path data fs :=
    match fs !! path with
    | Some Unreadable => (Raise (PermissionError (str "Permission denied")), fs)
    | _ => (Ok tt, <[path := Document (JList (JDict <$> data))]> fs)
    end
}.

(** ** The schema rules, as the specification lists them *)

(** A rule gives the text of its failure when a value violates it.  A rule
    about a field says nothing of a value that has no such field. *)
Definition rule : Type := json → Z → option pystr.

Definition field (item : json) (k : pystr) : option json :=
  match item with JDict d => d !! k | _ => None end.

Definition at_index (index : Z) : pystr := str "Item at index " ++ Py.repr_int index.

Definition rule_object : rule := λ item index,
  match item with
  | JDict _ => None
  | _ => Some (at_index index ++ str " is not an object")
  end.

Definition rule_required (k : pystr) : rule := λ item index,
  match item with
  | JDict d =>
      if decide (k ∈ dom d) then None
      else Some (at_index index ++ str " is missing required field '" ++ k ++ str "'")
  | _ => None
  end.

Definition rule_id_integer : rule := λ item index,
  match field item (str "id") with
  | Some (JInt _) | None => None
  | Some v =>
      Some (at_index index ++ str ": 'id' must be an integer, got " ++ Py.type_name v)
  end.

Definition rule_name_string : rule := λ item index,
  match field item (str "name") with
  | Some (JStr _) | None => None
  | Some v =>
      Some (at_index index ++ str ": 'name' must be a string, got " ++ Py.type_name v)
  end.

Definition rule_name_nonempty : rule := λ item index,
  match field item (str "name") with
  | Some (JStr s) =>
      if decide (Py.strip s = []) then
        Some (at_index index ++ str ": 'name' must be a non-empty string")
      else None
  | _ => None
  end.

Definition rule_value_numeric : rule := λ item index,
  match field item (str "value") with
  | Some (JInt _) | Some (JFloat _) | None => None
  | Some v =>
      Some (at_index index ++ str ": 'value' must be numeric, got " ++ Py.type_name v)
  end.

Definition schema_rules : list rule :=
  [ rule_object;
    rule_required (str "id"); rule_required (str "name"); rule_required (str "value");
    rule_id_integer; rule_name_string; rule_name_nonempty; rule_value_numeric ].

(** The first violation in the order of the list. *)
Fixpoint first_violation (rules : list rule) (item : json) (index : Z) : option pystr :=
  match rules with
  | [] => None
  | r :: rules' =>
      match r item index with
      | Some msg => Some msg
      | None => first_violation rules' item index
      end
  end.

(** A number of the schema: an [int] or a [float], and no [bool]. *)
Definition is_number (v : json) : bool :=
  match v with JInt _ | JFloat _ => true | _ => false end.

(** The record [validate_item] builds from the three fields. *)
Definition record (id name value : json) : gmap pystr json :=
  <[str "value" := value]> (<[str "name" := name]> (<[str "id" := id]> ∅)).

(** A record that came out of the Schema Validator. *)
Definition validated (item : gmap pystr json) : Prop :=
  ∃ raw index, validate_item raw index = Ok item.

(** A record with the two fields the Enricher adds. *)
Definition enriched (item : gmap pystr json) (name_length : Z) : gmap pystr json :=
  <[str "name_length" := JInt name_length]> (<[str "processed" := JBool true]> item).

(** An [id] as the claim about the input file reads the schema: a number
    with no fractional part and no boolean, the floating-point ones
    included. *)
Definition schema_id (v : json) : bool :=
  match v with
  | JInt _ => true
  | JFloat f =>
      match Prim2SF f with
      | S754_zero _ => true
      | S754_finite _ m e => (0 <=? e) || (Z.pos m mod 2 ^ (- e) =? 0)
      | _ => false
      end
  | _ => false
  end.

(** The four steps of the pipeline all complete. *)
Definition completes `{FileSystem Disk} (input_path output_path : pystr)
    (w : World Disk) : Prop :=
  ∃ data w1 validated_items processed_items w2 w3,
    read_input_file input_path w = (Ok data, w1)
    ∧ validate_input data = Ok validated_items
    ∧ process_items validated_items w1 = (Ok processed_items, w2)
    ∧ write_output_file output_path processed_items w2 = (Ok tt, w3).

(** The ids of a list of records, in order. *)
Definition ids (items : list (gmap pystr json)) : list (option json) :=
  (λ item, item !! str "id") <$> items.

(** What one turn of the Enricher's loop makes of an item. *)
Definition enriches (item o : gmap pystr json) : Prop :=
  ∃ id name value n,
    item !! str "id" = Some id ∧ item !! str "name" = Some name
    ∧ item !! str "value" = Some value ∧ Py.len name = Ok n
    ∧ o = enriched (record id name value) n.

(** A file system where reading a path back gives what was written to it. *)
Definition reads_back (Disk : Type) `{FileSystem Disk} : Prop :=
  ∀ path data fs fs',
    json_dump path data fs = (Ok tt, fs') →
    json_load path fs' = Ok (JList (JDict <$> data)).

(** The text of the name rule. *)
Definition name_empty_message (index : Z) : pystr :=
  str "Item at index " ++ Py.repr_int index
  ++ str ": 'name' must be a non-empty string".

(** ** Concrete inputs *)

Definition bad_item : json :=
  JDict (<[str "value" := JStr (str "x")]>
          (<[str "name" := JStr []]> (<[str "id" := JBool true]> ∅))).

Definition item_alpha : gmap pystr json :=
  record (JInt 1) (JStr (str "Alpha")) (JInt 10).

Definition item_beta : gmap pystr json :=
  record (JInt 2) (JStr (str "Beta")) (JInt 20).

Definition scenario_a : json := JList [JDict item_alpha; JDict item_beta].

(** A second record with the id of [item_alpha]. *)
Definition item_again : gmap pystr json :=
  record (JInt 1) (JStr (str "B")) (JFloat 2.5).

(** A name with white space around it. *)
Definition item_padded : gmap pystr json :=
  record (JInt 7) (JStr (str "  Bob ")) (JInt 0).

(** A record with a key the schema does not know. *)
Definition item_extra : gmap pystr json :=
  <[str "owner" := JStr (str "ops")]> item_alpha.

Definition float_id_item : json :=
  JDict (record (JFloat 5) (JStr (str "A")) (JInt 1)).

Definition blank_name_item : json :=
  JDict (record (JInt 5) (JStr (str " ")) (JInt 1)).

Definition disk_a : gmap pystr file :=
  <[str "in.json" := Document scenario_a]> ∅.

Definition world_a : World (gmap pystr file) := mkWorld [] disk_a.

(** * Properties *)

(** ** The Schema Validator *)

Lemma first_violation_at rules item index i r msg :
  rules !! i = Some r → r item index = Some msg →
  (∀ j r', (j < i)%nat → rules !! j = Some r' → r' item index = None) →
  first_violation rules item index = Some msg.
Proof.
  revert i. induction rules as [|r0 rules IH]; intros i Hi Hr Hbefore.
  - by rewrite lookup_nil in Hi.
  - destruct i as [|i]; simpl in *.
    + injection Hi as ->. by rewrite Hr.
    + rewrite (Hbefore 0%nat r0); [|lia|done].
      apply (IH i); [done..|].
      intros j r' Hj Hr'. apply (Hbefore (S j) r'); [lia | done].
Qed.


(** Membership in the keys of a [dict], decided by the look-up. *)
Ltac dom_cases :=
  repeat match goal with
  | H : _ ∈ dom _ |- _ => apply elem_of_dom in H; destruct H as [? H]
  | H : _ ∉ dom _ |- _ => apply not_elem_of_dom in H
  end.

Ltac unfold_rules :=
  unfold schema_rules, first_violation, rule_object, rule_required,
    rule_id_integer, rule_name_string, rule_name_nonempty,
    rule_value_numeric, field, at_index.

Lemma truthy_strip s : Py.truthy (Py.strip s) = false ↔ Py.strip s = [].
Proof. by destruct (Py.strip s). Qed.

Lemma validate_item_violation item index msg :
  first_violation schema_rules item index = Some msg →
  validate_item item index = Raise (ValidationError msg).
Proof.
  unfold_rules. unfold validate_item.
  destruct item as [| | | | | |d]; try (intros [= <-]; reflexivity).
  unfold required_fields, check_required, Py.getitem.
  repeat case_decide; dom_cases;
    repeat match goal with H : d !! _ = _ |- _ => rewrite !H; clear H end;
    try (intros [= <-]; reflexivity).
  cbn [mbind result_bind].
  destruct x1; try (intros [= <-]; reflexivity).
  destruct x0; try (intros [= <-]; reflexivity).
  cbn [Py.isinstance_bool Py.isinstance_int negb orb].
  case_decide as Hs.
  { intros [= <-]. apply truthy_strip in Hs. rewrite Hs. reflexivity. }
  apply (not_iff_compat (truthy_strip _)), not_false_is_true in Hs. rewrite Hs.
  destruct x; (intros [= <-]; reflexivity) || discriminate.
Qed.

Lemma validate_item_Ok item index r :
  validate_item item index = Ok r ↔
  ∃ d z s value,
    item = JDict d ∧ d !! str "id" = Some (JInt z) ∧
    d !! str "name" = Some (JStr s) ∧ Py.strip s ≠ [] ∧
    d !! str "value" = Some value ∧ is_number value = true ∧
    r = record (JInt z) (JStr s) value.
Proof.
  split.
  - unfold validate_item.
    destruct item as [| | | | | |d]; try discriminate.
    unfold required_fields, check_required, Py.getitem.
    destruct (d !! str "id") as [vid|] eqn:Hid; [|discriminate].
    destruct (d !! str "name") as [vname|] eqn:Hname; [|discriminate].
    destruct (d !! str "value") as [value|] eqn:Hvalue; [|discriminate].
    cbn [mbind result_bind].
    destruct vid; try discriminate.
    destruct vname; try discriminate.
    cbn [Py.isinstance_bool Py.isinstance_int negb orb].
    destruct (Py.truthy (Py.strip s)) eqn:Hs; [|discriminate].
    cbn [negb].
    destruct value; try discriminate; intros [= <-];
      eexists d, z, s, _; (split_and!; try done);
      intros E; by rewrite E in Hs.
  - intros (d & z & s & value & -> & Hid & Hname & Hs & Hvalue & Hnum & ->).
    unfold validate_item, required_fields, check_required, Py.getitem.
    rewrite Hid, Hname, Hvalue. cbn [mbind result_bind].
    cbn [Py.isinstance_bool Py.isinstance_int negb orb].
    apply (not_iff_compat (truthy_strip _)), not_false_is_true in Hs. rewrite Hs.
    by destruct value.
Qed.

Lemma validate_item_raises item index e :
  validate_item item index = Raise e → ∃ msg, e = ValidationError msg.
Proof.
  unfold validate_item, required_fields, check_required, Py.getitem.
  destruct item as [| | | | | |d]; try (intros [= <-]; eauto).
  destruct (d !! str "id") as [vid|]; [|intros [= <-]; eauto].
  destruct (d !! str "name") as [vname|]; [|intros [= <-]; eauto].
  destruct (d !! str "value") as [value|]; [|intros [= <-]; eauto].
  cbn [mbind result_bind].
  destruct vid; try (intros [= <-]; eauto).
  destruct vname; try (intros [= <-]; eauto).
  cbn [Py.isinstance_bool Py.isinstance_int negb orb].
  destruct (Py.truthy (Py.strip s)); [|intros [= <-]; eauto].
  destruct value; (intros [= <-]; eauto) || discriminate.
Qed.

(** C1: [validate_item] checks the rules in the fixed order (object;
    required fields id, name, value; integer id; string name; non-empty
    name after trimming; numeric non-boolean value) and raises the error of
    the first violated one: when a rule is violated and no rule before it
    is, its message is the one reported, whatever later rules the value
    violates as well. *)
Theorem validate_item_first_violation (item : json) (index : Z)
    (i : nat) (r : rule) (msg : pystr) :
  schema_rules !! i = Some r →
  r item index = Some msg →
  (∀ j r', (j < i)%nat → schema_rules !! j = Some r' → r' item index = None) →
  validate_item item index = Raise (ValidationError msg).
Proof.
  intros Hi Hr Hbefore.
  apply validate_item_violation. by apply (first_violation_at _ _ _ i r).
Qed.

Lemma validate_item_first_violation_witness :
  rule_name_nonempty bad_item 0 <> None ∧
  rule_value_numeric bad_item 0 <> None ∧
  validate_item bad_item 0
  = Raise (ValidationError
      (str "Item at index 0: 'id' must be an integer, got bool")).
Proof.
  split; [by vm_compute|]. split; [by vm_compute|].
  apply (validate_item_first_violation bad_item 0 4 rule_id_integer).
  - reflexivity.
  - vm_compute. reflexivity.
  - intros j r' Hj Hr'.
    destruct j as [|[|[|[|j]]]]; [..|lia]; injection Hr' as <-;
      vm_compute; reflexivity.
Defined.

(** C2: a record whose [id] is a boolean, or whose [value] is a boolean,
    is rejected.  When the [id] rule is the one reached the message names
    the type [bool], and so does the message of the [value] rule for a
    boolean [value]. *)
Theorem validate_item_rejects_bool (d : gmap pystr json) (index : Z) (b : bool) :
  (d !! str "id" = Some (JBool b) ∨ d !! str "value" = Some (JBool b) →
   ∃ msg, validate_item (JDict d) index = Raise (ValidationError msg))
  ∧ (d !! str "id" = Some (JBool b) →
     is_Some (d !! str "name") → is_Some (d !! str "value") →
     validate_item (JDict d) index
     = Raise (ValidationError
         (str "Item at index " ++ Py.repr_int index
          ++ str ": 'id' must be an integer, got bool")))
  ∧ (d !! str "value" = Some (JBool b) →
     ∀ z s, d !! str "id" = Some (JInt z) →
       d !! str "name" = Some (JStr s) → Py.strip s ≠ [] →
       validate_item (JDict d) index
       = Raise (ValidationError
           (str "Item at index " ++ Py.repr_int index
            ++ str ": 'value' must be numeric, got bool"))).
Proof.
  split_and!.
  - intros Hb.
    destruct (validate_item (JDict d) index) as [r|e] eqn:Hv.
    + apply validate_item_Ok in Hv
        as (d' & z & s & value & [= <-] & Hid & _ & _ & Hvalue & Hnum & _).
      destruct Hb as [Hb|Hb]; [congruence|].
      rewrite Hb in Hvalue. injection Hvalue as <-. discriminate.
    + apply validate_item_raises in Hv as [msg ->]. by exists msg.
  - intros Hid [vname Hname] [value Hvalue].
    unfold validate_item, required_fields, check_required, Py.getitem.
    by rewrite Hid, Hname, Hvalue.
  - intros Hvalue z s Hid Hname Hs.
    unfold validate_item, required_fields, check_required, Py.getitem.
    rewrite Hid, Hname, Hvalue. cbn [mbind result_bind].
    cbn [Py.isinstance_bool Py.isinstance_int negb orb].
    apply (not_iff_compat (truthy_strip _)), not_false_is_true in Hs.
    by rewrite Hs.
Qed.

Lemma validate_item_rejects_bool_witness :
  validate_item
    (JDict (<[str "value" := JBool false]>
             (<[str "name" := JStr (str "Test")]> (<[str "id" := JInt 1]> ∅)))) 3
  = Raise (ValidationError
      (str "Item at index 3: 'value' must be numeric, got bool")).
Proof.
  refine (proj2 (proj2 (validate_item_rejects_bool _ 3 false)) _ 1 (str "Test") _ _ _);
    by vm_compute.
Defined.

(** ** The Input Validator *)

Lemma record_lookup_id id name value : record id name value !! str "id" = Some id.
Proof. by vm_compute. Qed.

Lemma record_lookup_name id name value : record id name value !! str "name" = Some name.
Proof. by vm_compute. Qed.

Lemma record_lookup_value id name value :
  record id name value !! str "value" = Some value.
Proof. by vm_compute. Qed.

Lemma validate_item_id_int item index r :
  validate_item item index = Ok r → ∃ z, r !! str "id" = Some (JInt z).
Proof.
  intros (d & z & s & value & _ & _ & _ & _ & _ & _ & ->)%validate_item_Ok.
  exists z. apply record_lookup_id.
Qed.

(** One turn of the loop, once the element has passed [validate_item]. *)
Lemma validate_loop_cons item data index acc seen r z :
  validate_item item index = Ok r → r !! str "id" = Some (JInt z) →
  validate_loop (item :: data) index acc seen
  = if decide (z ∈ seen) then
      Raise (ValidationError (str "Duplicate id found: " ++ Py.repr_int z))
    else validate_loop data (index + 1) (acc ++ [r]) (seen ∪ {[z]}).
Proof.
  intros Hv Hid. cbn [validate_loop]. rewrite Hv. cbn [mbind result_bind].
  unfold Py.getitem. by rewrite Hid.
Qed.

Lemma validate_loop_cons_raise item data index acc seen e :
  validate_item item index = Raise e →
  validate_loop (item :: data) index acc seen = Raise e.
Proof. intros Hv. cbn [validate_loop]. by rewrite Hv. Qed.

Lemma validate_loop_Ok data : ∀ index acc seen out,
  validate_loop data index acc seen = Ok out →
  ∃ vs, out = acc ++ vs ∧ length vs = length data ∧
    (∀ k raw, data !! k = Some raw →
       ∃ v, vs !! k = Some v ∧ validate_item raw (index + Z.of_nat k) = Ok v) ∧
    (∀ i j v w, vs !! i = Some v → vs !! j = Some w →
       v !! str "id" = w !! str "id" → i = j) ∧
    (∀ v z, v ∈ vs → v !! str "id" = Some (JInt z) → z ∉ seen).
Proof.
  induction data as [|item data IH]; intros index acc seen out Hloop.
  - injection Hloop as <-. exists []. rewrite app_nil_r.
    split_and!; try done.
    intros v z Hin. by apply elem_of_nil in Hin.
  - destruct (validate_item item index) as [r|e] eqn:Hv;
      [|by rewrite (validate_loop_cons_raise _ _ _ _ _ e) in Hloop].
    destruct (validate_item_id_int _ _ _ Hv) as [z Hz].
    rewrite (validate_loop_cons _ _ _ _ _ r z Hv Hz) in Hloop.
    case_decide as Hseen; [discriminate|].
    apply IH in Hloop as (vs & -> & Hlen & Hvalid & Hdistinct & Hfresh).
    exists (r :: vs). split_and!.
    + by rewrite <- app_assoc.
    + simpl. by rewrite Hlen.
    + intros [|k] raw Hk; simpl in Hk.
      * injection Hk as <-. exists r. by rewrite Z.add_0_r.
      * destruct (Hvalid k raw Hk) as (v & Hvk & Hvv). exists v.
        split; [done|]. rewrite <- Hvv. f_equal. lia.
    + assert (Hhead : ∀ j w, vs !! j = Some w → r !! str "id" ≠ w !! str "id").
      { intros j w Hw Heq. rewrite Hz in Heq.
        apply (Hfresh w z); [by eapply list_elem_of_lookup_2|done|set_solver]. }
      intros [|i] [|j] v w Hi Hj Heq; simpl in *; try done.
      * injection Hi as <-. by destruct (Hhead j w Hj).
      * injection Hj as <-. by destruct (Hhead i v Hi).
      * f_equal. by apply (Hdistinct i j v w).
    + intros v z' Hin Hid Hz'.
      apply elem_of_cons in Hin as [->|Hin].
      * congruence.
      * apply (Hfresh v z' Hin Hid). set_solver.
Qed.

(** C9: when [validate_input] succeeds, the records it returns are the
    validated elements of the input, in the order of the input, and no two
    of them have the same [id]. *)
Theorem validate_input_distinct_in_order (data : json)
    (out : list (gmap pystr json)) :
  validate_input data = Ok out →
  ∃ raws, data = JList raws ∧ length out = length raws ∧
    (∀ k raw, raws !! k = Some raw →
       ∃ v, out !! k = Some v ∧ validate_item raw (Z.of_nat k) = Ok v) ∧
    (∀ i j v w, out !! i = Some v → out !! j = Some w →
       v !! str "id" = w !! str "id" → i = j).
Proof.
  destruct data as [| | | | |raws|]; try discriminate.
  intros (vs & -> & Hlen & Hvalid & Hdistinct & _)%validate_loop_Ok.
  exists raws. by split_and!.
Qed.

Lemma validate_input_distinct_in_order_witness :
  ∃ raws, scenario_a = JList raws ∧ length [item_alpha; item_beta] = length raws ∧
    (∀ k raw, raws !! k = Some raw →
       ∃ v, [item_alpha; item_beta] !! k = Some v
            ∧ validate_item raw (Z.of_nat k) = Ok v) ∧
    (∀ i j v w, [item_alpha; item_beta] !! i = Some v →
       [item_alpha; item_beta] !! j = Some w →
       v !! str "id" = w !! str "id" → i = j).
Proof.
  apply (validate_input_distinct_in_order scenario_a [item_alpha; item_beta]).
  vm_compute. reflexivity.
Defined.

(** The loop over a prefix whose elements all pass and carry fresh ids. *)
Lemma validate_loop_prefix pre : ∀ rest index acc seen vs,
  length vs = length pre →
  (∀ k raw, pre !! k = Some raw →
     ∃ v, vs !! k = Some v ∧ validate_item raw (index + Z.of_nat k) = Ok v) →
  (∀ i j v w, vs !! i = Some v → vs !! j = Some w →
     v !! str "id" = w !! str "id" → i = j) →
  (∀ v z, v ∈ vs → v !! str "id" = Some (JInt z) → z ∉ seen) →
  ∃ seen',
    (∀ z, z ∈ seen' ↔ z ∈ seen ∨ ∃ v, v ∈ vs ∧ v !! str "id" = Some (JInt z)) ∧
    validate_loop (pre ++ rest) index acc seen
    = validate_loop rest (index + Z.of_nat (length pre)) (acc ++ vs) seen'.
Proof.
  induction pre as [|item pre IH]; intros rest index acc seen vs Hlen Hvalid Hdistinct Hfresh.
  - destruct vs; [|done]. exists seen. split.
    + intros z. split; [by left|]. intros [?|(v & Hin & _)]; [done|].
      by apply elem_of_nil in Hin.
    + simpl. by rewrite Z.add_0_r, app_nil_r.
  - destruct vs as [|r vs]; [done|]. injection Hlen as Hlen.
    destruct (Hvalid 0%nat item eq_refl) as (r' & [= <-] & Hv).
    rewrite Z.add_0_r in Hv.
    destruct (validate_item_id_int _ _ _ Hv) as [z Hz].
    destruct (IH rest (index + 1) (acc ++ [r]) (seen ∪ {[z]}) vs) as (seen' & Hseen' & Hloop).
    + done.
    + intros k raw Hk. destruct (Hvalid (S k) raw Hk) as (v & Hvk & Hvv).
      exists v. split; [done|]. rewrite <- Hvv. f_equal. lia.
    + intros i j v w Hi Hj Heq.
      by injection (Hdistinct (S i) (S j) v w Hi Hj Heq).
    + intros v z' Hin Hid [Hz'|Heq%elem_of_singleton]%elem_of_union.
      * apply (Hfresh v z'); [by right|done..].
      * apply list_elem_of_lookup_1 in Hin as [i Hi].
        by specialize (Hdistinct (S i) 0%nat v r Hi eq_refl ltac:(congruence)).
    + exists seen'. split.
      * intros z'. rewrite Hseen', elem_of_union, elem_of_singleton. split.
        -- intros [[?|Heq]|(v & Hin & Hid)].
           ++ by left.
           ++ right. exists r. split; [by left|]. by rewrite Heq.
           ++ right. exists v. split; [by right|done].
        -- intros [?|(v & [Heq|Hin]%elem_of_cons & Hid)].
           ++ by left; left.
           ++ left; right. rewrite Heq in Hid. congruence.
           ++ right. by exists v.
      * cbn [app]. rewrite (validate_loop_cons _ _ _ _ _ r z Hv Hz).
        rewrite decide_False by (apply (Hfresh r z); [by left|done]).
        rewrite Hloop. f_equal; [simpl; lia|by rewrite <- app_assoc].
Qed.

(** C3: in a sequence whose first elements [pre] all pass the Schema
    Validator and carry pairwise distinct ids, an element [x] that passes
    and repeats one of those ids makes [validate_input] fail with
    "Duplicate id found: <id>", whatever follows it; an [x] that does not
    pass fails with its own schema error, so the duplicate check comes
    after the schema check. *)
Theorem validate_input_first_duplicate (pre : list json) (x : json)
    (rest : list json) (vs : list (gmap pystr json)) :
  length vs = length pre →
  (∀ k raw, pre !! k = Some raw →
     ∃ v, vs !! k = Some v ∧ validate_item raw (Z.of_nat k) = Ok v) →
  (∀ i j v w, vs !! i = Some v → vs !! j = Some w →
     v !! str "id" = w !! str "id" → i = j) →
  (∀ v z, validate_item x (Z.of_nat (length pre)) = Ok v →
     v !! str "id" = Some (JInt z) →
     (∃ w, w ∈ vs ∧ w !! str "id" = Some (JInt z)) →
     validate_input (JList (pre ++ x :: rest))
     = Raise (ValidationError (str "Duplicate id found: " ++ Py.repr_int z)))
  ∧ (∀ e, validate_item x (Z.of_nat (length pre)) = Raise e →
     validate_input (JList (pre ++ x :: rest)) = Raise e).
Proof.
  intros Hlen Hvalid Hdistinct.
  destruct (validate_loop_prefix pre (x :: rest) 0 [] ∅ vs)
    as (seen' & Hseen' & Hloop); [done..|set_solver|].
  cbn [validate_input]. rewrite Hloop, Z.add_0_l. split.
  - intros v z Hv Hz Hdup.
    rewrite (validate_loop_cons _ _ _ _ _ v z Hv Hz).
    rewrite decide_True; [done|]. apply Hseen'. by right.
  - intros e He. by apply validate_loop_cons_raise.
Qed.

Lemma validate_input_first_duplicate_witness :
  validate_input
    (JList ([JDict item_alpha; JDict item_beta]
            ++ JDict item_again :: [JNull; JDict item_beta]))
  = Raise (ValidationError (str "Duplicate id found: 1")).
Proof.
  refine (proj1 (validate_input_first_duplicate
                   [JDict item_alpha; JDict item_beta] (JDict item_again)
                   [JNull; JDict item_beta] [item_alpha; item_beta] _ _ _)
            item_again 1 _ _ _).
  - reflexivity.
  - intros [|[|k]] raw Hk; simpl in Hk; [..|discriminate];
      injection Hk as <-; eexists; (split; [reflexivity|]);
      vm_compute; reflexivity.
  - intros [|[|i]] [|[|j]] v w Hi Hj; simpl in Hi, Hj;
      try discriminate; try reflexivity;
      injection Hi as <-; injection Hj as <-; vm_compute; discriminate.
  - vm_compute. reflexivity.
  - vm_compute. reflexivity.
  - exists item_alpha. split; [by left|]. vm_compute. reflexivity.
Defined.

(** ** The Enricher *)

Lemma process_loop_cons z s value items acc :
  process_loop (record (JInt z) (JStr s) value :: items) acc
  = process_loop items
      (acc ++ [enriched (record (JInt z) (JStr s) value) (Z.of_nat (length s))]).
Proof.
  cbn [process_loop]. unfold Py.getitem.
  by rewrite record_lookup_id, record_lookup_name, record_lookup_value.
Qed.

Lemma process_loop_validated items : ∀ acc,
  Forall validated items →
  ∃ out, process_loop items acc = Ok (acc ++ out) ∧ length out = length items ∧
    ∀ i item, items !! i = Some item →
      ∃ z s value, item = record (JInt z) (JStr s) value ∧
        out !! i = Some (enriched item (Z.of_nat (length s))).
Proof.
  induction items as [|item items IH]; intros acc Hall.
  - exists []. by rewrite app_nil_r.
  - apply Forall_cons in Hall as [(raw & index & Hv) Hall].
    apply validate_item_Ok in Hv as (d & z & s & value & _ & _ & _ & _ & _ & _ & ->).
    rewrite process_loop_cons.
    destruct (IH (acc ++ [enriched (record (JInt z) (JStr s) value) (Z.of_nat (length s))]) Hall)
      as (out & -> & Hlen & Hout).
    eexists (_ :: out). split_and!.
    + by rewrite <- app_assoc.
    + simpl. by rewrite Hlen.
    + intros [|i] item Hi; simpl in Hi.
      * injection Hi as <-. by exists z, s, value.
      * by apply Hout.
Qed.

Lemma process_items_run {Disk : Type} items (w : World Disk) :
  (process_items items w).1 = process_loop items [].
Proof.
  unfold process_items, io_bind, io_lift, io_ret, logger.
  by destruct (process_loop items []).
Qed.

Lemma enriched_record_dom z s value n :
  dom (enriched (record (JInt z) (JStr s) value) n)
  = {[ str "id"; str "name"; str "value"; str "processed"; str "name_length" ]}.
Proof. by vm_compute. Qed.

(** C4: on records that came out of the Schema Validator the Enricher does
    not raise; it returns as many records as it was given, in the same
    order, and the i-th one has the [id], [name] and [value] of the i-th
    input record, [processed] true and [name_length] the number of
    characters of its [name], and no other key.  The empty list gives the
    empty list. *)
Theorem process_items_total {Disk : Type} (items : list (gmap pystr json))
    (w : World Disk) :
  Forall validated items →
  ∃ out, (process_items items w).1 = Ok out ∧ length out = length items ∧
    ∀ i item, items !! i = Some item →
      ∃ o s, out !! i = Some o ∧ item !! str "name" = Some (JStr s) ∧
        o !! str "id" = item !! str "id" ∧
        o !! str "name" = item !! str "name" ∧
        o !! str "value" = item !! str "value" ∧
        o !! str "processed" = Some (JBool true) ∧
        o !! str "name_length" = Some (JInt (Z.of_nat (length s))) ∧
        dom o = {[ str "id"; str "name"; str "value";
                   str "processed"; str "name_length" ]}.
Proof.
  intros Hall. rewrite process_items_run.
  destruct (process_loop_validated items [] Hall) as (out & Hloop & Hlen & Hout).
  exists out. split_and!; [done..|].
  intros i item Hi. destruct (Hout i item Hi) as (z & s & value & -> & Ho).
  eexists _, s. split; [exact Ho|]. split_and!; try by vm_compute.
Qed.

Lemma process_items_total_witness :
  ∃ out, (process_items [item_alpha; item_beta] world_a).1 = Ok out
    ∧ length out = 2%nat
    ∧ out !! 1%nat = Some (enriched item_beta 4)
    ∧ (process_items [] world_a).1 = Ok [].
Proof.
  destruct (process_items_total [item_alpha; item_beta] world_a)
    as (out & Hrun & Hlen & _).
  - repeat first [apply List.Forall_cons | apply List.Forall_nil];
      match goal with |- validated ?item => exists (JDict item), 0 end;
      vm_compute; reflexivity.
  - exists out. split_and!; [done..| |reflexivity].
    revert Hrun. vm_compute. by intros [= <-].
Defined.

(** C8: the records the Enricher returns do not depend on the world it
    runs in: two runs on the same list return the same records, also when
    the second run starts in the world the first one left, whose log has
    grown; the files are not touched. *)
Theorem process_items_repeatable {Disk : Type} (items : list (gmap pystr json))
    (w w' : World Disk) :
  (process_items items w).1 = (process_items items w').1
  ∧ (process_items items (process_items items w).2).1 = (process_items items w).1
  ∧ files (process_items items w).2 = files w.
Proof.
  rewrite !process_items_run. split_and!; [done..|].
  unfold process_items, io_bind, io_lift, io_ret, logger.
  by destruct (process_loop items []).
Qed.

(** C6: a record that passes validation keeps its [name] as it was given,
    white space included, and its [id] and [value] unchanged; the
    [name_length] of the output record counts the characters of that
    untrimmed [name]. *)
Theorem validated_fields_unchanged {Disk : Type} (item : json) (index : Z)
    (r : gmap pystr json) (w : World Disk) :
  validate_item item index = Ok r →
  ∃ s, field item (str "name") = Some (JStr s)
    ∧ r !! str "name" = Some (JStr s)
    ∧ r !! str "id" = field item (str "id")
    ∧ r !! str "value" = field item (str "value")
    ∧ ∃ o, (process_items [r] w).1 = Ok [o]
        ∧ o !! str "name" = Some (JStr s)
        ∧ o !! str "name_length" = Some (JInt (Z.of_nat (length s))).
Proof.
  intros (d & z & s & value & -> & Hid & Hname & _ & Hvalue & _ & ->)%validate_item_Ok.
  exists s. cbn [field]. rewrite Hid, Hname, Hvalue.
  split_and!; try by vm_compute.
  eexists. rewrite process_items_run, process_loop_cons. cbn [process_loop app].
  split_and!; by vm_compute.
Qed.

Lemma validated_fields_unchanged_witness :
  ∃ s, field (JDict item_padded) (str "name") = Some (JStr s)
    ∧ item_padded !! str "name" = Some (JStr s)
    ∧ item_padded !! str "id" = field (JDict item_padded) (str "id")
    ∧ item_padded !! str "value" = field (JDict item_padded) (str "value")
    ∧ ∃ o, (process_items [item_padded] world_a).1 = Ok [o]
        ∧ o !! str "name" = Some (JStr s)
        ∧ o !! str "name_length" = Some (JInt (Z.of_nat (length s))).
Proof.
  apply (validated_fields_unchanged (JDict item_padded) 0 item_padded world_a).
  vm_compute. reflexivity.
Defined.

(** The id 5.0 is a number without fractional part, and a record with it is
    rejected; so is a record whose [name] is a string of white space. *)
Lemma float_id_rejected :
  schema_id (JFloat 5) = true
  ∧ validate_item float_id_item 0
    = Raise (ValidationError
        (str "Item at index 0: 'id' must be an integer, got float"))
  ∧ validate_item blank_name_item 0
    = Raise (ValidationError
        (str "Item at index 0: 'name' must be a non-empty string")).
Proof. split_and!; by vm_compute. Qed.

(** C7, amended: a record whose [id] is an [int], whose [name] is a string
    that is not empty once trimmed and whose [value] is an [int] or a
    [float] is accepted; an [id] that is a [float], with or without a
    fractional part, is rejected as not an integer. *)
Theorem validate_item_accepts_int_id (d : gmap pystr json) (index : Z) :
  (∀ z s value,
     d !! str "id" = Some (JInt z) →
     d !! str "name" = Some (JStr s) → Py.strip s ≠ [] →
     d !! str "value" = Some value → is_number value = true →
     validate_item (JDict d) index = Ok (record (JInt z) (JStr s) value))
  ∧ (∀ f, d !! str "id" = Some (JFloat f) →
     is_Some (d !! str "name") → is_Some (d !! str "value") →
     validate_item (JDict d) index
     = Raise (ValidationError
         (str "Item at index " ++ Py.repr_int index
          ++ str ": 'id' must be an integer, got float"))).
Proof.
  split.
  - intros z s value Hid Hname Hs Hvalue Hnum.
    apply validate_item_Ok. by exists d, z, s, value.
  - intros f Hid [vname Hname] [value Hvalue].
    unfold validate_item, required_fields, check_required, Py.getitem.
    by rewrite Hid, Hname, Hvalue.
Qed.

Lemma validate_item_accepts_int_id_witness :
  validate_item (JDict item_again) 4 = Ok item_again.
Proof.
  refine (proj1 (validate_item_accepts_int_id item_again 4)
            1 (str "B") (JFloat 2.5) _ _ _ _ _); by vm_compute.
Defined.

(** C10: keys beyond [id], [name] and [value] are no error: a mapping that
    extends a valid one validates to the same record, which has exactly
    the three keys, so the output record has exactly its five. *)
Theorem validate_item_ignores_extra_keys {Disk : Type} (d d' : gmap pystr json)
    (index : Z) (r : gmap pystr json) (w : World Disk) :
  validate_item (JDict d) index = Ok r → d ⊆ d' →
  validate_item (JDict d') index = Ok r
  ∧ dom r = {[ str "id"; str "name"; str "value" ]}
  ∧ ∃ o, (process_items [r] w).1 = Ok [o]
      ∧ dom o = {[ str "id"; str "name"; str "value";
                   str "processed"; str "name_length" ]}.
Proof.
  intros (d0 & z & s & value & [= <-] & Hid & Hname & Hs & Hvalue & Hnum & ->)%validate_item_Ok Hsub.
  split_and!.
  - apply validate_item_Ok. exists d', z, s, value.
    split_and!; try done; by eapply lookup_weaken.
  - by vm_compute.
  - eexists. rewrite process_items_run, process_loop_cons. cbn [process_loop app].
    split; [done|]. apply enriched_record_dom.
Qed.

Lemma validate_item_ignores_extra_keys_witness :
  validate_item (JDict item_extra) 0 = Ok item_alpha
  ∧ dom item_alpha = {[ str "id"; str "name"; str "value" ]}
  ∧ ∃ o, (process_items [item_alpha] world_a).1 = Ok [o]
      ∧ dom o = {[ str "id"; str "name"; str "value";
                   str "processed"; str "name_length" ]}.
Proof.
  apply (validate_item_ignores_extra_keys item_alpha item_extra 0 item_alpha world_a).
  - vm_compute. reflexivity.
  - apply insert_subseteq. vm_compute. reflexivity.
Defined.

(** ** The Pipeline Orchestrator *)

(** C5: [process_command] returns 0 when reading, validating, enriching
    and writing all complete, and 1 when any of them raises, whatever the
    exception; it returns no other value and raises nothing itself. *)
Theorem process_command_status `{FileSystem Disk} (input_path output_path : pystr)
    (w : World Disk) :
  (completes input_path output_path w →
   (process_command input_path output_path w).1 = 0)
  ∧ (¬ completes input_path output_path w →
     (process_command input_path output_path w).1 = 1)
  ∧ ((process_command input_path output_path w).1 = 0
     ∨ (process_command input_path output_path w).1 = 1).
Proof.
  assert (Hsteps :
    (completes input_path output_path w ∧
       ∃ w', process_steps input_path output_path w = (Ok 0, w'))
    ∨ (¬ completes input_path output_path w ∧
       ∃ e w', process_steps input_path output_path w = (Raise e, w'))).
  { unfold completes, process_steps, io_bind, io_lift, io_ret.
    destruct (read_input_file input_path w) as [[data|e] w1] eqn:Hread.
    2: { right. split; [|by eauto]. intros (? & ? & ? & ? & ? & ? & [=] & _). }
    destruct (validate_input data) as [validated_items|e] eqn:Hvalid.
    2: { right. split; [|by eauto].
         intros (? & ? & ? & ? & ? & ? & [= <- <-] & Hv & _). congruence. }
    destruct (process_items validated_items w1) as [[processed_items|e] w2] eqn:Hproc.
    2: { right. split; [|by eauto].
         intros (? & ? & ? & ? & ? & ? & [= <- <-] & Hv & Hp & _).
         rewrite Hvalid in Hv. injection Hv as <-. congruence. }
    destruct (write_output_file output_path processed_items w2) as [[[]|e] w3] eqn:Hwrite.
    - left. split; [|by eauto].
      by exists data, w1, validated_items, processed_items, w2, w3.
    - right. split; [|by eauto].
      intros (? & ? & ? & ? & ? & ? & [= <- <-] & Hv & Hp & Hw).
      rewrite Hvalid in Hv. injection Hv as <-.
      rewrite Hproc in Hp. injection Hp as <- <-. congruence. }
  unfold process_command.
  destruct Hsteps as [[Hc (w' & ->)]|[Hc (e & w' & ->)]].
  - split_and!; [done|done|by left].
  - split_and!; [done| |right]; by destruct e.
Qed.

Lemma process_command_status_witness :
  (process_command (str "in.json") (str "out.json") world_a).1 = 0
  ∧ (process_command (str "none.json") (str "out.json") world_a).1 = 1.
Proof.
  split.
  - apply (proj1 (process_command_status (str "in.json") (str "out.json") world_a)).
    unfold completes. do 6 eexists. split_and!; vm_compute; reflexivity.
  - apply (proj1 (proj2
      (process_command_status (str "none.json") (str "out.json") world_a))).
    intros (? & ? & ? & ? & ? & ? & Hread & _). vm_compute in Hread. discriminate.
Defined.

(** * Further properties of the code *)

(** ** [validate_item] *)

(** [validate_item] raises nothing but [ValidationError], and the message
    starts with the position it was given. *)
Theorem validate_item_error_names_position (item : json) (index : Z) (e : exn) :
  validate_item item index = Raise e →
  ∃ rest, e = ValidationError (str "Item at index " ++ Py.repr_int index ++ rest).
Proof.
  unfold validate_item, required_fields, check_required, Py.getitem.
  destruct item as [| | | | | |d]; try (intros [= <-]; eauto).
  destruct (d !! str "id") as [vid|]; [|intros [= <-]; eauto].
  destruct (d !! str "name") as [vname|]; [|intros [= <-]; eauto].
  destruct (d !! str "value") as [value|]; [|intros [= <-]; eauto].
  cbn [mbind result_bind].
  destruct vid; try (intros [= <-]; eauto).
  destruct vname; try (intros [= <-]; eauto).
  cbn [Py.isinstance_bool Py.isinstance_int negb orb].
  destruct (Py.truthy (Py.strip s)); [|intros [= <-]; eauto].
  destruct value; (intros [= <-]; eauto) || discriminate.
Qed.

Lemma validate_item_error_names_position_witness :
  ∃ rest,
    ValidationError (str "Item at index 0: 'id' must be an integer, got bool")
    = ValidationError (str "Item at index " ++ Py.repr_int 0 ++ rest).
Proof.
  apply (validate_item_error_names_position bad_item 0). vm_compute. reflexivity.
Defined.

(** [validate_item] accepts exactly the objects whose [id] is an [int],
    whose [name] is a string that is not empty once stripped and whose
    [value] is an [int] or a [float]; what it returns is the record of
    these three fields. *)
Theorem validate_item_accepts_exactly (item : json) (index : Z)
    (r : gmap pystr json) :
  validate_item item index = Ok r ↔
  ∃ d z s value,
    item = JDict d ∧ d !! str "id" = Some (JInt z)
    ∧ d !! str "name" = Some (JStr s) ∧ Py.strip s ≠ []
    ∧ d !! str "value" = Some value ∧ is_number value = true
    ∧ r = record (JInt z) (JStr s) value.
Proof. apply validate_item_Ok. Qed.

Lemma validate_item_Ok_index item i j r :
  validate_item item i = Ok r → validate_item item j = Ok r.
Proof. by rewrite !validate_item_Ok. Qed.

(** The position only shows in the messages: whether a value is accepted,
    and the record it gives, are the same at every position. *)
Theorem validate_item_any_index (item : json) (i j : Z) (r : gmap pystr json) :
  validate_item item i = Ok r ↔ validate_item item j = Ok r.
Proof. split; apply validate_item_Ok_index. Qed.

(** A validated record is an object that validates to itself. *)
Theorem validate_item_idempotent (item : json) (i j : Z) (r : gmap pystr json) :
  validate_item item i = Ok r → validate_item (JDict r) j = Ok r.
Proof.
  intros (d & z & s & value & _ & _ & _ & Hs & _ & Hnum & ->)%validate_item_Ok.
  apply validate_item_Ok. exists (record (JInt z) (JStr s) value), z, s, value.
  by rewrite record_lookup_id, record_lookup_name, record_lookup_value.
Qed.

Lemma validate_item_idempotent_witness :
  validate_item (JDict item_alpha) 9 = Ok item_alpha.
Proof.
  apply (validate_item_idempotent (JDict item_extra) 0 9 item_alpha).
  vm_compute. reflexivity.
Defined.

(** What [lstrip] leaves is empty or starts with a character that is no
    white space. *)
Lemma lstrip_head s :
  Py.lstrip s = [] ∧ Forall (λ c, Py.isspace c = true) s
  ∨ ∃ c t, Py.lstrip s = c :: t ∧ Py.isspace c = false.
Proof.
  induction s as [|c s IH]; [by left|].
  cbn [Py.lstrip]. destruct (Py.isspace c) eqn:Hc.
  - destruct IH as [[-> Hall]|IH]; [left|by right].
    split; [done|]. by apply List.Forall_cons.
  - right. by exists c, s.
Qed.

Lemma lstrip_nil s : Py.lstrip s = [] ↔ Forall (λ c, Py.isspace c = true) s.
Proof.
  split.
  - intros Hs. destruct (lstrip_head s) as [[_ Hall]|(c & t & Ht & _)]; [done|].
    congruence.
  - induction 1 as [|c s Hc _ IH]; [done|]. cbn [Py.lstrip]. by rewrite Hc.
Qed.

Lemma strip_nil s : Py.strip s = [] ↔ Forall (λ c, Py.isspace c = true) s.
Proof.
  unfold Py.strip, Py.rstrip. split.
  - intros Hs. apply (f_equal reverse) in Hs. rewrite reverse_involutive in Hs.
    cbn in Hs. apply lstrip_nil in Hs.
    destruct (lstrip_head s) as [[_ Hall]|(c & t & Ht & Hc)]; [done|].
    rewrite Ht, Forall_reverse in Hs.
    apply Forall_cons in Hs as [Hc' _]. congruence.
  - intros Hall. apply lstrip_nil in Hall. by rewrite Hall.
Qed.

(** With an integer [id] and a [value] present, the name rule fires exactly
    on the names made of white space only, the empty name among them. *)
Theorem validate_item_blank_name (d : gmap pystr json) (index z : Z) (s : pystr) :
  d !! str "id" = Some (JInt z) →
  d !! str "name" = Some (JStr s) →
  is_Some (d !! str "value") →
  validate_item (JDict d) index = Raise (ValidationError (name_empty_message index))
  ↔ Forall (λ c, Py.isspace c = true) s.
Proof.
  intros Hid Hname [value Hvalue]. rewrite <- strip_nil.
  unfold validate_item, required_fields, check_required, Py.getitem.
  rewrite Hid, Hname, Hvalue. cbn [mbind result_bind].
  cbn [Py.isinstance_bool Py.isinstance_int negb orb].
  unfold name_empty_message.
  remember (str "Item at index ") as p. remember (Py.repr_int index) as q.
  destruct (Py.strip s) as [|c t] eqn:Hs; cbn [Py.truthy negb]; [done|].
  split; [|done].
  destruct value; cbn [Py.isinstance_bool Py.isinstance_int Py.isinstance_float negb orb];
    intros Hmsg; try discriminate; injection Hmsg as Hmsg;
    do 2 apply app_inv_head in Hmsg; vm_compute in Hmsg; discriminate.
Qed.

Lemma validate_item_blank_name_witness :
  validate_item (JDict (record (JInt 3) (JStr (str "  ")) (JStr [])))  2
  = Raise (ValidationError (name_empty_message 2)).
Proof.
  apply (validate_item_blank_name _ 2 3 (str "  ")).
  - vm_compute. reflexivity.
  - vm_compute. reflexivity.
  - eexists. vm_compute. reflexivity.
  - repeat first [apply List.Forall_cons | apply List.Forall_nil]; reflexivity.
Defined.

(** ** [validate_input] *)

Lemma validate_loop_raises data : ∀ index acc seen e,
  validate_loop data index acc seen = Raise e →
  (∃ k raw, data !! k = Some raw ∧ validate_item raw (index + Z.of_nat k) = Raise e)
  ∨ (∃ z, e = ValidationError (str "Duplicate id found: " ++ Py.repr_int z)).
Proof.
  induction data as [|item data IH]; intros index acc seen e Hloop; [done|].
  destruct (validate_item item index) as [r|e'] eqn:Hv.
  - destruct (validate_item_id_int _ _ _ Hv) as [z Hz].
    rewrite (validate_loop_cons _ _ _ _ _ r z Hv Hz) in Hloop.
    case_decide.
    + injection Hloop as <-. right. by exists z.
    + apply IH in Hloop as [(k & raw & Hk & Hraw)|Hdup]; [left|by right].
      exists (S k), raw. split; [done|]. rewrite <- Hraw. f_equal. lia.
  - rewrite (validate_loop_cons_raise _ _ _ _ _ e' Hv) in Hloop.
    injection Hloop as <-. left. exists 0%nat, item. by rewrite Z.add_0_r.
Qed.

(** Whatever [validate_input] raises is a [ValidationError], and it is one
    of three: the input is no array; an element is rejected by
    [validate_item], called with that element's own position; an id is
    repeated. *)
Theorem validate_input_errors (data : json) (e : exn) :
  validate_input data = Raise e →
  (∃ msg, e = ValidationError msg)
  ∧ (e = ValidationError (str "Input must be a JSON array")
       ∧ (∀ raws, data ≠ JList raws)
     ∨ (∃ raws k raw, data = JList raws ∧ raws !! k = Some raw
          ∧ validate_item raw (Z.of_nat k) = Raise e)
     ∨ (∃ z, e = ValidationError (str "Duplicate id found: " ++ Py.repr_int z))).
Proof.
  intros Hv.
  assert (Hcases :
    e = ValidationError (str "Input must be a JSON array")
      ∧ (∀ raws, data ≠ JList raws)
    ∨ (∃ raws k raw, data = JList raws ∧ raws !! k = Some raw
         ∧ validate_item raw (Z.of_nat k) = Raise e)
    ∨ (∃ z, e = ValidationError (str "Duplicate id found: " ++ Py.repr_int z))).
  { destruct data as [| | | | |raws|];
      try (injection Hv as <-; left; by split).
    apply validate_loop_raises in Hv as [(k & raw & Hk & Hraw)|Hdup].
    - right; left. by exists raws, k, raw.
    - by right; right. }
  split; [|done].
  destruct Hcases as [[-> _]|[(raws & k & raw & _ & _ & Hraw)|[z ->]]]; eauto.
  by apply validate_item_raises in Hraw.
Qed.

Lemma validate_input_errors_witness :
  (∃ msg, ValidationError
            (str "Item at index 1: 'name' must be a non-empty string")
          = ValidationError msg)
  ∧ (ValidationError (str "Item at index 1: 'name' must be a non-empty string")
       = ValidationError (str "Input must be a JSON array")
       ∧ (∀ raws, JList [JDict item_alpha; blank_name_item] ≠ JList raws)
     ∨ (∃ raws k raw,
          JList [JDict item_alpha; blank_name_item] = JList raws
          ∧ raws !! k = Some raw
          ∧ validate_item raw (Z.of_nat k)
            = Raise (ValidationError
                (str "Item at index 1: 'name' must be a non-empty string")))
     ∨ (∃ z, ValidationError
               (str "Item at index 1: 'name' must be a non-empty string")
             = ValidationError (str "Duplicate id found: " ++ Py.repr_int z))).
Proof.
  apply (validate_input_errors (JList [JDict item_alpha; blank_name_item])).
  vm_compute. reflexivity.
Defined.

Lemma ids_distinct_NoDup (vs : list (gmap pystr json)) :
  (∀ i j v w, vs !! i = Some v → vs !! j = Some w →
     v !! str "id" = w !! str "id" → i = j)
  ↔ NoDup (ids vs).
Proof.
  unfold ids. rewrite NoDup_alt. split.
  - intros Hdistinct i j x Hi Hj. rewrite list_lookup_fmap in Hi, Hj.
    destruct (vs !! i) as [v|] eqn:Hv; [|done].
    destruct (vs !! j) as [w|] eqn:Hw; [|done].
    injection Hi as Hi. injection Hj as Hj.
    apply (Hdistinct i j v w); congruence.
  - intros Hnodup i j v w Hi Hj Heq.
    apply (Hnodup i j (v !! str "id")); rewrite list_lookup_fmap.
    + by rewrite Hi.
    + by rewrite Hj, Heq.
Qed.

Lemma validate_input_Ok_iff (raws : list json) (out : list (gmap pystr json)) :
  validate_input (JList raws) = Ok out
  ↔ Forall2 (λ raw v, validate_item raw 0 = Ok v) raws out ∧ NoDup (ids out).
Proof.
  split.
  - intros (vs & -> & Hlen & Hvalid & Hdistinct & _)%validate_loop_Ok.
    cbn [app]. split; [|by apply ids_distinct_NoDup].
    apply Forall2_same_length_lookup_2; [done|].
    intros i raw v Hraw Hv. destruct (Hvalid i raw Hraw) as (v' & Hv' & Hok).
    rewrite Z.add_0_l in Hok. apply (validate_item_Ok_index _ (Z.of_nat i)).
    congruence.
  - intros [Hall Hnodup]. cbn [validate_input].
    destruct (validate_loop_prefix raws [] 0 [] ∅ out) as (seen' & _ & Hloop).
    + symmetry. by eapply Forall2_length.
    + intros k raw Hraw.
      destruct (Forall2_lookup_l _ _ _ _ _ Hall Hraw) as (v & Hv & Hok).
      exists v. split; [done|]. by apply (validate_item_Ok_index _ 0).
    + by apply ids_distinct_NoDup.
    + set_solver.
    + by rewrite app_nil_r in Hloop.
Qed.

Lemma validate_input_validated data items :
  validate_input data = Ok items → Forall validated items.
Proof.
  destruct data as [| | | | |raws|]; try discriminate.
  intros [Hall _]%validate_input_Ok_iff.
  induction Hall as [|raw v ? ? Hv _ IH]; constructor; [|done].
  by exists raw, 0.
Qed.

(** [validate_input] accepts an array exactly when [validate_item] accepts
    every element and no two of the records have the same [id]; it then
    returns these records, one for one. *)
Theorem validate_input_accepts_exactly (raws : list json)
    (out : list (gmap pystr json)) :
  validate_input (JList raws) = Ok out
  ↔ Forall2 (λ raw v, validate_item raw 0 = Ok v) raws out ∧ NoDup (ids out).
Proof. apply validate_input_Ok_iff. Qed.

(** The order of the elements does not decide whether an array is
    accepted: a rearranged input gives the same records, rearranged. *)
Theorem validate_input_permutation (raws raws' : list json)
    (out : list (gmap pystr json)) :
  validate_input (JList raws) = Ok out → raws ≡ₚ raws' →
  ∃ out', validate_input (JList raws') = Ok out' ∧ out ≡ₚ out'.
Proof.
  rewrite validate_input_Ok_iff. intros [Hall Hnodup] Hperm.
  assert (Hout : ∃ out', out ≡ₚ out'
            ∧ Forall2 (λ raw v, validate_item raw 0 = Ok v) raws' out').
  { clear Hnodup. revert out Hall.
    induction Hperm as [|x l l' _ IH|x y l|l l' l'' _ IH1 _ IH2]; intros out Hall.
    - apply Forall2_nil_inv_l in Hall as ->. by exists [].
    - apply Forall2_cons_inv_l in Hall as (v & vs & Hv & Hvs & ->).
      destruct (IH vs Hvs) as (vs' & Hp & Hall'). exists (v :: vs').
      split; [by constructor|by constructor].
    - apply Forall2_cons_inv_l in Hall as (v & vs & Hv & Hvs & ->).
      apply Forall2_cons_inv_l in Hvs as (v' & vs' & Hv' & Hvs' & ->).
      exists (v' :: v :: vs'). split; [by constructor|by repeat constructor].
    - destruct (IH1 out Hall) as (out1 & Hp1 & Hall1).
      destruct (IH2 out1 Hall1) as (out2 & Hp2 & Hall2).
      exists out2. split; [by etrans|done]. }
  destruct Hout as (out' & Hp & Hall'). exists out'. split; [|done].
  apply validate_input_Ok_iff. split; [done|].
  unfold ids. by rewrite <- Hp.
Qed.

Lemma validate_input_permutation_witness :
  ∃ out', validate_input (JList [JDict item_beta; JDict item_alpha]) = Ok out'
    ∧ [item_alpha; item_beta] ≡ₚ out'.
Proof.
  apply (validate_input_permutation [JDict item_alpha; JDict item_beta]).
  - vm_compute. reflexivity.
  - apply perm_swap.
Defined.

(** An accepted array stays accepted when elements are left out. *)
Theorem validate_input_sublist (raws raws' : list json)
    (out : list (gmap pystr json)) :
  validate_input (JList raws) = Ok out → raws' `sublist_of` raws →
  ∃ out', validate_input (JList raws') = Ok out' ∧ out' `sublist_of` out.
Proof.
  rewrite validate_input_Ok_iff. intros [Hall Hnodup] Hsub.
  assert (Hout : ∃ out', out' `sublist_of` out
            ∧ Forall2 (λ raw v, validate_item raw 0 = Ok v) raws' out').
  { clear Hnodup. revert out Hall.
    induction Hsub as [|x l l' _ IH|x l l' _ IH]; intros out Hall.
    - apply Forall2_nil_inv_l in Hall as ->. by exists [].
    - apply Forall2_cons_inv_l in Hall as (v & vs & Hv & Hvs & ->).
      destruct (IH vs Hvs) as (vs' & Hs & Hall'). exists (v :: vs').
      split; [by constructor|by constructor].
    - apply Forall2_cons_inv_l in Hall as (v & vs & Hv & Hvs & ->).
      destruct (IH vs Hvs) as (vs' & Hs & Hall'). exists vs'.
      split; [by constructor|done]. }
  destruct Hout as (out' & Hs & Hall'). exists out'. split; [|done].
  apply validate_input_Ok_iff. split; [done|].
  apply (sublist_NoDup _ (ids out)); [done|]. unfold ids. by apply fmap_sublist.
Qed.

Lemma validate_input_sublist_witness :
  ∃ out', validate_input (JList [JDict item_beta]) = Ok out'
    ∧ out' `sublist_of` [item_alpha; item_beta].
Proof.
  apply (validate_input_sublist [JDict item_alpha; JDict item_beta]).
  - vm_compute. reflexivity.
  - apply sublist_cons, sublist_skip, sublist_nil.
Defined.

(** ** [process_items] *)

Lemma process_loop_step item items acc :
  process_loop (item :: items) acc
  = match item !! str "id", item !! str "name", item !! str "value" with
    | Some id, Some name, Some value =>
        match Py.len name with
        | Ok n => process_loop items (acc ++ [enriched (record id name value) n])
        | Raise e => Raise e
        end
    | None, _, _ => Raise (KeyError (str "'id'"))
    | _, None, _ => Raise (KeyError (str "'name'"))
    | _, _, None => Raise (KeyError (str "'value'"))
    end.
Proof.
  cbn [process_loop]. unfold Py.getitem.
  destruct (item !! str "id"); [|done]. cbn [mbind result_bind].
  destruct (item !! str "name") as [name|]; [|done]. cbn [mbind result_bind].
  destruct (item !! str "value"); [|done]. cbn [mbind result_bind].
  by destruct (Py.len name).
Qed.

Lemma process_loop_Ok items : ∀ acc out,
  process_loop items acc = Ok out
  ↔ ∃ os, out = acc ++ os ∧ Forall2 enriches items os.
Proof.
  induction items as [|item items IH]; intros acc out.
  - cbn [process_loop]. split.
    + intros [= <-]. exists []. by rewrite app_nil_r.
    + intros (os & -> & ->%Forall2_nil_inv_l). by rewrite app_nil_r.
  - rewrite process_loop_step. split.
    + destruct (item !! str "id") as [id|] eqn:Hid; [|done].
      destruct (item !! str "name") as [name|] eqn:Hname; [|done].
      destruct (item !! str "value") as [value|] eqn:Hvalue; [|done].
      destruct (Py.len name) as [n|] eqn:Hlen; [|done].
      intros (os & -> & Hos)%IH.
      exists (enriched (record id name value) n :: os).
      split; [by rewrite <- app_assoc|]. constructor; [|done].
      by exists id, name, value, n.
    + intros (os & -> & Hos).
      apply Forall2_cons_inv_l in Hos
        as (o & os' & (id & name & value & n & Hid & Hname & Hvalue & Hlen & ->)
              & Hos' & ->).
      rewrite Hid, Hname, Hvalue, Hlen. apply IH. exists os'.
      by rewrite <- app_assoc.
Qed.

Lemma process_items_Ok_iff {Disk : Type} (items out : list (gmap pystr json))
    (w : World Disk) :
  (process_items items w).1 = Ok out ↔ Forall2 enriches items out.
Proof.
  rewrite process_items_run, process_loop_Ok. split.
  - by intros (os & -> & Hos).
  - intros Hos. by exists out.
Qed.

(** [process_items] checks nothing itself: it succeeds exactly when every
    item has the keys [id], [name] and [value] and a [name] that has a
    length, and then each output is the input's three fields with
    [processed] and [name_length] added. *)
Theorem process_items_accepts_exactly {Disk : Type}
    (items out : list (gmap pystr json)) (w : World Disk) :
  (process_items items w).1 = Ok out ↔ Forall2 enriches items out.
Proof. apply process_items_Ok_iff. Qed.

Lemma process_loop_raises items : ∀ acc e,
  process_loop items acc = Raise e →
  ∃ item, item ∈ items
    ∧ (item !! str "id" = None ∧ e = KeyError (str "'id'")
       ∨ item !! str "name" = None ∧ e = KeyError (str "'name'")
       ∨ item !! str "value" = None ∧ e = KeyError (str "'value'")
       ∨ ∃ name, item !! str "name" = Some name ∧ Py.len name = Raise e).
Proof.
  induction items as [|item items IH]; intros acc e; [done|].
  rewrite process_loop_step.
  destruct (item !! str "id") as [id|] eqn:Hid.
  2: { intros [= <-]. exists item. split; [by left|]. by left. }
  destruct (item !! str "name") as [name|] eqn:Hname.
  2: { intros [= <-]. exists item. split; [by left|]. by right; left. }
  destruct (item !! str "value") as [value|] eqn:Hvalue.
  2: { intros [= <-]. exists item. split; [by left|]. by right; right; left. }
  destruct (Py.len name) as [n|e'] eqn:Hlen.
  - intros (item' & Hin & Hcase)%IH. exists item'. split; [by right|done].
  - intros [= <-]. exists item. split; [by left|]. right; right; right. by exists name.
Qed.

(** When [process_items] raises, some item lacks one of the three keys,
    and the error is the [KeyError] of that key, or has a [name] without a
    length, and the error is the [TypeError] of [len]. *)
Theorem process_items_errors {Disk : Type} (items : list (gmap pystr json))
    (w : World Disk) (e : exn) :
  (process_items items w).1 = Raise e →
  ∃ item, item ∈ items
    ∧ (item !! str "id" = None ∧ e = KeyError (str "'id'")
       ∨ item !! str "name" = None ∧ e = KeyError (str "'name'")
       ∨ item !! str "value" = None ∧ e = KeyError (str "'value'")
       ∨ ∃ name, item !! str "name" = Some name ∧ Py.len name = Raise e).
Proof. rewrite process_items_run. apply process_loop_raises. Qed.

Lemma process_items_errors_witness :
  ∃ item, item ∈ [item_alpha; delete (str "value") item_beta]
    ∧ (item !! str "id" = None ∧ KeyError (str "'value'") = KeyError (str "'id'")
       ∨ item !! str "name" = None
         ∧ KeyError (str "'value'") = KeyError (str "'name'")
       ∨ item !! str "value" = None
         ∧ KeyError (str "'value'") = KeyError (str "'value'")
       ∨ ∃ name, item !! str "name" = Some name
           ∧ Py.len name = Raise (KeyError (str "'value'"))).
Proof.
  apply (process_items_errors [item_alpha; delete (str "value") item_beta] world_a).
  vm_compute. reflexivity.
Defined.

(** The log of [process_items]: a successful run adds one line, with the
    number of items, and a run that raises adds nothing; the files stay as
    they are. *)
Theorem process_items_log {Disk : Type} (items : list (gmap pystr json))
    (w : World Disk) :
  match process_items items w with
  | (Ok out, w') =>
      length out = length items
      ∧ log w' = log w ++ [(INFO, str "Successfully processed "
                                   ++ Py.repr_int (Z.of_nat (length items))
                                   ++ str " items")]
      ∧ files w' = files w
  | (Raise _, w') => w' = w
  end.
Proof.
  unfold process_items, io_bind, io_lift, io_ret, logger.
  destruct (process_loop items []) as [out|e] eqn:Hloop; [|done].
  apply process_loop_Ok in Hloop as (os & -> & Hos). cbn [app].
  apply Forall2_length in Hos. by rewrite Hos.
Qed.

(** Enriching a list is enriching its parts: the run on [a ++ b] succeeds
    exactly when the runs on [a] and on [b] do, and returns their results
    one after the other. *)
Theorem process_items_app {Disk : Type} (a b out : list (gmap pystr json))
    (w : World Disk) :
  (process_items (a ++ b) w).1 = Ok out
  ↔ ∃ out_a out_b,
      (process_items a w).1 = Ok out_a ∧ (process_items b w).1 = Ok out_b
      ∧ out = out_a ++ out_b.
Proof.
  split.
  - intros (oa & ob & Ha & Hb & ->)%process_items_Ok_iff%Forall2_app_inv_l.
    exists oa, ob. by rewrite !process_items_Ok_iff.
  - intros (oa & ob & Ha & Hb & ->).
    apply process_items_Ok_iff in Ha, Hb.
    apply process_items_Ok_iff. by apply Forall2_app.
Qed.

Lemma strip_nonempty s : Py.strip s ≠ [] → (1 ≤ Z.of_nat (length s)).
Proof. destruct s; [done|]. simpl. lia. Qed.

(** A validated record has a [name] of at least one character, so the
    [name_length] the Enricher computes for it is at least 1. *)
Theorem validated_name_length_positive {Disk : Type} (item : gmap pystr json)
    (w : World Disk) :
  validated item →
  ∃ o n, (process_items [item] w).1 = Ok [o]
    ∧ o !! str "name_length" = Some (JInt n) ∧ 1 ≤ n.
Proof.
  intros (raw & index & Hv).
  apply validate_item_Ok in Hv as (d & z & s & value & _ & _ & _ & Hs & _ & _ & ->).
  exists (enriched (record (JInt z) (JStr s) value) (Z.of_nat (length s))),
    (Z.of_nat (length s)).
  rewrite process_items_run, process_loop_cons. split_and!; [done|by vm_compute|].
  by apply strip_nonempty.
Qed.

Lemma validated_name_length_positive_witness :
  ∃ o n, (process_items [item_padded] world_a).1 = Ok [o]
    ∧ o !! str "name_length" = Some (JInt n) ∧ 1 ≤ n.
Proof.
  apply (validated_name_length_positive item_padded world_a).
  exists (JDict item_padded), 0. vm_compute. reflexivity.
Defined.

Lemma validate_item_enriched z s value n index :
  Py.strip s ≠ [] → is_number value = true →
  validate_item (JDict (enriched (record (JInt z) (JStr s) value) n)) index
  = Ok (record (JInt z) (JStr s) value).
Proof.
  intros Hs Hnum. apply validate_item_Ok.
  exists (enriched (record (JInt z) (JStr s) value) n), z, s, value.
  split_and!; try done; by vm_compute.
Qed.

Lemma validated_enriched item n index :
  validated item → validate_item (JDict (enriched item n)) index = Ok item.
Proof.
  intros (raw & i & Hv).
  apply validate_item_Ok in Hv as (d & z & s & value & _ & _ & _ & Hs & _ & Hnum & ->).
  by apply validate_item_enriched.
Qed.

Lemma validate_input_enriched data items out :
  validate_input data = Ok items → process_loop items [] = Ok out →
  validate_input (JList (JDict <$> out)) = Ok items.
Proof.
  intros Hv Hloop. pose proof (validate_input_validated _ _ Hv) as Hval.
  destruct data as [| | | | |raws|]; try discriminate.
  apply validate_input_Ok_iff in Hv as [Hall Hnodup].
  destruct (process_loop_validated items [] Hval) as (out' & Hloop' & Hlen & Hout).
  rewrite Hloop in Hloop'. injection Hloop' as ->. cbn [app] in *.
  apply validate_input_Ok_iff. split; [|done].
  apply Forall2_same_length_lookup_2; [by rewrite length_fmap|].
  intros i raw v Hraw Hi. rewrite list_lookup_fmap in Hraw.
  destruct (Hout i v Hi) as (z & s & value & _ & Ho).
  rewrite Ho in Hraw. injection Hraw as <-.
  apply validated_enriched. by eapply Forall_lookup_1.
Qed.

(** The output of the pipeline is a valid input of it: the records that
    [process_items] makes of a validated list validate again, to the list
    they were made of. *)
Theorem validate_process_validate {Disk : Type} (data : json)
    (items : list (gmap pystr json)) (w : World Disk) :
  validate_input data = Ok items →
  ∃ out, (process_items items w).1 = Ok out
    ∧ validate_input (JList (JDict <$> out)) = Ok items.
Proof.
  intros Hv. pose proof (validate_input_validated _ _ Hv) as Hval.
  destruct (process_loop_validated items [] Hval) as (out & Hloop & _ & _).
  exists out. split; [by rewrite process_items_run|].
  by apply (validate_input_enriched data).
Qed.

Lemma validate_process_validate_witness :
  ∃ out, (process_items [item_alpha; item_beta] world_a).1 = Ok out
    ∧ validate_input (JList (JDict <$> out)) = Ok [item_alpha; item_beta].
Proof.
  apply (validate_process_validate scenario_a [item_alpha; item_beta] world_a).
  vm_compute. reflexivity.
Defined.

(** ** [read_input_file] and [write_output_file] *)

(** [read_input_file] turns every failure of the reader into a
    [ValidationError] and then leaves the world as it was; when the reader
    succeeds it returns the document, logs one line and changes no file. *)
Theorem read_input_file_outcome `{FileSystem Disk} (input_path : pystr)
    (w : World Disk) :
  match read_input_file input_path w with
  | (Ok data, w') =>
      json_load input_path (files w) = Ok data
      ∧ files w' = files w
      ∧ log w' = log w ++ [(INFO, str "Successfully read input file: " ++ input_path)]
  | (Raise e, w') =>
      (∃ msg, e = ValidationError msg) ∧ w' = w
      ∧ ∃ e0, json_load input_path (files w) = Raise e0
  end.
Proof.
  unfold read_input_file, io_bind, io_ret, logger.
  destruct (json_load input_path (files w)) as [data|e0]; [done|].
  destruct e0; cbn; eauto.
Qed.

(** [write_output_file] turns every failure of the writer into a
    [ValidationError]; it logs one line when the writer succeeds and none
    when it fails, and the files are the ones the writer left. *)
Theorem write_output_file_outcome `{FileSystem Disk} (output_path : pystr)
    (data : list (gmap pystr json)) (w : World Disk) :
  match write_output_file output_path data w with
  | (Ok _, w') =>
      json_dump output_path data (files w) = (Ok tt, files w')
      ∧ log w' = log w ++ [(INFO, str "Successfully wrote output file: " ++ output_path)]
  | (Raise e, w') =>
      (∃ msg, e = ValidationError msg) ∧ log w' = log w
      ∧ ∃ e0, json_dump output_path data (files w) = (Raise e0, files w')
  end.
Proof.
  unfold write_output_file, logger.
  destruct (json_dump output_path data (files w)) as [[[]|e0] fs'] eqn:Hdump.
  - done.
  - destruct e0; cbn; eauto.
Qed.

(** ** [process_command] *)

Lemma validate_input_raises data e :
  validate_input data = Raise e → ∃ msg, e = ValidationError msg.
Proof.
  destruct data as [| | | | |raws|]; try (intros [= <-]; eauto).
  intros [(k & raw & _ & Hraw)|[z ->]]%validate_loop_raises; [|eauto].
  by apply validate_item_raises in Hraw.
Qed.

Lemma read_input_file_cases `{FileSystem Disk} (input_path : pystr) (w : World Disk) :
  (∃ data, json_load input_path (files w) = Ok data
     ∧ read_input_file input_path w
       = (Ok data,
          mkWorld (log w ++ [(INFO, str "Successfully read input file: " ++ input_path)])
                  (files w)))
  ∨ (∃ e0 msg, json_load input_path (files w) = Raise e0
       ∧ read_input_file input_path w = (Raise (ValidationError msg), w)).
Proof.
  unfold read_input_file, io_bind, io_ret, logger.
  destruct (json_load input_path (files w)) as [data|e0]; [left; eauto|right].
  destruct e0; eauto.
Qed.

Lemma write_output_file_cases `{FileSystem Disk} (output_path : pystr)
    (data : list (gmap pystr json)) (w : World Disk) :
  (∃ fs', json_dump output_path data (files w) = (Ok tt, fs')
     ∧ write_output_file output_path data w
       = (Ok tt,
          mkWorld (log w ++ [(INFO, str "Successfully wrote output file: " ++ output_path)])
                  fs'))
  ∨ (∃ e0 fs' msg, json_dump output_path data (files w) = (Raise e0, fs')
       ∧ write_output_file output_path data w
         = (Raise (ValidationError msg), mkWorld (log w) fs')).
Proof.
  unfold write_output_file, logger.
  destruct (json_dump output_path data (files w)) as [[[]|e0] fs'];
    [left; eauto|right].
  destruct e0; cbn; eauto 6.
Qed.

Lemma process_items_eq {Disk : Type} (items : list (gmap pystr json)) (w : World Disk) :
  process_items items w
  = match process_loop items [] with
    | Ok out =>
        (Ok out,
         mkWorld (log w ++ [(INFO, str "Successfully processed "
                                   ++ Py.repr_int (Z.of_nat (length out))
                                   ++ str " items")]) (files w))
    | Raise e => (Raise e, w)
    end.
Proof.
  unfold process_items, io_bind, io_lift, io_ret, logger.
  by destruct (process_loop items []).
Qed.

Lemma io_bind_eq {Disk A B : Type} (c : io Disk A) (k : A → io Disk B) w :
  io_bind c k w
  = match c w with (Ok a, w') => k a w' | (Raise e, w') => (Raise e, w') end.
Proof. reflexivity. Qed.

(** The run of the four steps, by the outcome of each. *)
Lemma process_steps_outcome `{FileSystem Disk} (input_path output_path : pystr)
    (w : World Disk) :
  let l1 := (INFO, str "Successfully read input file: " ++ input_path) in
  let l3 := (INFO, str "Successfully wrote output file: " ++ output_path) in
  match json_load input_path (files w) with
  | Raise _ =>
      ∃ msg, process_steps input_path output_path w = (Raise (ValidationError msg), w)
  | Ok data =>
      match validate_input data with
      | Raise e =>
          ∃ msg, process_steps input_path output_path w
                 = (Raise (ValidationError msg), mkWorld (log w ++ [l1]) (files w))
      | Ok items =>
          ∃ out, Forall2 enriches items out ∧
            let l2 := (INFO, str "Successfully processed "
                             ++ Py.repr_int (Z.of_nat (length out)) ++ str " items") in
            match json_dump output_path out (files w) with
            | (Ok _, fs') =>
                process_steps input_path output_path w
                = (Ok 0, mkWorld (log w ++ [l1; l2; l3]) fs')
            | (Raise _, fs') =>
                ∃ msg, process_steps input_path output_path w
                       = (Raise (ValidationError msg), mkWorld (log w ++ [l1; l2]) fs')
            end
      end
  end.
Proof.
  intros l1 l3. unfold process_steps. rewrite io_bind_eq.
  destruct (read_input_file_cases input_path w)
    as [(data & -> & ->)|(e0 & msg & -> & ->)]; [|by exists msg].
  rewrite io_bind_eq. unfold io_lift.
  destruct (validate_input data) as [items|e] eqn:Hvalid.
  2: { apply validate_input_raises in Hvalid as [msg ->]. by exists msg. }
  apply validate_input_validated in Hvalid.
  destruct (process_loop_validated items [] Hvalid) as (out & Hloop & _ & _).
  cbn [app] in Hloop. exists out.
  split.
  { apply process_loop_Ok in Hloop as (os & Hos & Hen). cbn [app] in Hos. by subst. }
  rewrite io_bind_eq, process_items_eq, Hloop. cbn [log files].
  rewrite io_bind_eq.
  match goal with |- context [write_output_file output_path out ?w1] =>
    destruct (write_output_file_cases output_path out w1)
      as [(fs' & Hdump & ->)|(e0 & fs' & msg & Hdump & ->)]
  end; cbn [log files] in Hdump |- *; rewrite Hdump.
  - unfold io_ret. by rewrite <- !app_assoc.
  - exists msg. by rewrite <- !app_assoc.
Qed.

(** When the input cannot be read or does not validate, [process_command]
    returns 1 and leaves every file as it was: nothing is written. *)
Theorem process_command_invalid_input_writes_nothing `{FileSystem Disk}
    (input_path output_path : pystr) (w : World Disk) :
  (¬ ∃ data items,
       json_load input_path (files w) = Ok data ∧ validate_input data = Ok items) →
  (process_command input_path output_path w).1 = 1
  ∧ files (process_command input_path output_path w).2 = files w.
Proof.
  intros Hbad. unfold process_command.
  pose proof (process_steps_outcome input_path output_path w) as Hsteps.
  cbn zeta in Hsteps.
  destruct (json_load input_path (files w)) as [data|e0].
  - destruct (validate_input data) as [items|e] eqn:Hvalid.
    + destruct Hbad. by exists data, items.
    + by destruct Hsteps as [msg ->].
  - by destruct Hsteps as [msg ->].
Qed.

Lemma process_command_invalid_input_writes_nothing_witness :
  (process_command (str "none.json") (str "out.json") world_a).1 = 1
  ∧ files (process_command (str "none.json") (str "out.json") world_a).2
    = files world_a.
Proof.
  apply (process_command_invalid_input_writes_nothing
           (str "none.json") (str "out.json") world_a).
  intros (data & items & Hload & _). vm_compute in Hload. discriminate.
Defined.

(** The log of a run: status 0 comes with exactly the three lines of the
    three successful steps; status 1 comes with the lines of the steps
    that succeeded and then one error line, which always reads
    "Validation error: ..." and never "Unexpected error: ...". *)
Theorem process_command_log `{FileSystem Disk} (input_path output_path : pystr)
    (w : World Disk) :
  let (status, w') := process_command input_path output_path w in
  (status = 0
   ∧ ∃ n, log w'
          = log w ++ [(INFO, str "Successfully read input file: " ++ input_path);
                      (INFO, str "Successfully processed " ++ Py.repr_int n
                             ++ str " items");
                      (INFO, str "Successfully wrote output file: " ++ output_path)])
  ∨ (status = 1
     ∧ ∃ infos msg,
         log w' = log w ++ infos ++ [(ERROR, str "Validation error: " ++ msg)]
         ∧ Forall (λ line, line.1 = INFO) infos).
Proof.
  unfold process_command.
  pose proof (process_steps_outcome input_path output_path w) as Hsteps.
  cbn zeta in Hsteps.
  destruct (json_load input_path (files w)) as [data|e0].
  - destruct (validate_input data) as [items|e].
    + destruct Hsteps as (out & _ & Hsteps).
      destruct (json_dump output_path out (files w)) as [[[]|e0] fs'].
      * rewrite Hsteps. left. split; [done|]. by eexists.
      * destruct Hsteps as [msg ->]. right. split; [done|].
        eexists [_; _], msg. cbn [logger snd log files app].
        split; [by rewrite <- app_assoc|]. by repeat constructor.
    + destruct Hsteps as [msg ->]. right. split; [done|].
      eexists [_], msg. cbn [logger snd log files app].
      split; [by rewrite <- app_assoc|]. by repeat constructor.
  - destruct Hsteps as [msg ->]. right. split; [done|].
    by exists [], msg.
Qed.

(** A run with status 0 has read a document that validates, and the files
    it leaves are those of the writer called with the enriched records. *)
Theorem process_command_writes_enriched `{FileSystem Disk}
    (input_path output_path : pystr) (w : World Disk) :
  (process_command input_path output_path w).1 = 0 →
  ∃ data items out,
    json_load input_path (files w) = Ok data
    ∧ validate_input data = Ok items
    ∧ Forall2 enriches items out
    ∧ json_dump output_path out (files w)
      = (Ok tt, files (process_command input_path output_path w).2).
Proof.
  unfold process_command.
  pose proof (process_steps_outcome input_path output_path w) as Hsteps.
  cbn zeta in Hsteps.
  destruct (json_load input_path (files w)) as [data|e0].
  - destruct (validate_input data) as [items|e] eqn:Hvalid.
    + destruct Hsteps as (out & Hout & Hsteps).
      destruct (json_dump output_path out (files w)) as [[[]|e0] fs'] eqn:Hdump.
      * rewrite Hsteps. intros _. exists data, items, out.
        by rewrite Hdump.
      * by destruct Hsteps as [msg ->].
    + by destruct Hsteps as [msg ->].
  - by destruct Hsteps as [msg ->].
Qed.

Lemma process_command_writes_enriched_witness :
  ∃ data items out,
    json_load (str "in.json") (files world_a) = Ok data
    ∧ validate_input data = Ok items
    ∧ Forall2 enriches items out
    ∧ json_dump (str "out.json") out (files world_a)
      = (Ok tt, files (process_command (str "in.json") (str "out.json") world_a).2).
Proof.
  apply (process_command_writes_enriched (str "in.json") (str "out.json") world_a).
  vm_compute. reflexivity.
Defined.
